(** * The authentication routes of the contacts backend

    A shallow embedding of [src/routes/auth.py] (signup, login,
    refresh_token, confirmed_email) and of the Alembic revision
    [9591ecaee4f4] that adds the [confirmed] column to the [users] table,
    with the properties of the authentication flow proved over it. *)

From stdpp Require Import gmap strings list fin_maps.

Open Scope Z_scope.
Open Scope string_scope.
Import Stdlib.Strings.Ascii.

(** ** Exceptions and results *)

(** [fastapi.status]: the status codes the routes use. *)
Definition HTTP_200_OK : Z := 200.
Definition HTTP_201_CREATED : Z := 201.
Definition HTTP_400_BAD_REQUEST : Z := 400.
Definition HTTP_401_UNAUTHORIZED : Z := 401.
Definition HTTP_409_CONFLICT : Z := 409.

(** [src.conf.messages]: the routes import these constants by name; their
    texts are not part of the routes, so a message is its name. *)
Inductive message : Set :=
  | ALREADY_EXISTS
  | EMAIL_ALREADY_CONFIRMED
  | EMAIL_CONFIRMED
  | EMAIL_NOT_CONFIRMED
  | INVALID_EMAIL
  | INVALID_PASSWORD
  | INVALID_TOKEN
  | SUCCESS_CREATE_USER
  | VERIFICATION_ERROR.

(** What a route can raise: an [HTTPException], which the framework turns
    into a response with that status, or Python's [AttributeError] for an
    attribute read on [None], which no route handles. *)
Inductive exception : Set :=
  | HTTPException (status_code : Z) (detail : message)
  | AttributeError.

Inductive result (A : Type) : Type :=
  | Return (a : A)
  | Raise (e : exception).
Arguments Return {A} a.
Arguments Raise {A} e.

(** The 401 answer with a given detail. *)
Abbreviation Unauthorized detail :=
  (Raise (HTTPException HTTP_401_UNAUTHORIZED detail)).

(** A successful response: the status of the route's decorator and the
    returned dictionary. *)
Record response (A : Type) : Type := Response { status_code : Z; content : A }.
Arguments Response {A} _ _.
Arguments status_code {A} _.
Arguments content {A} _.

(** Python's truth value of a nullable boolean attribute: [None] and
    [False] are false. *)
Definition truth (o : option bool) : bool :=
  match o with
  | Some b => b
  | None => false
  end.

(** ** The data model *)

Module User.
(** The columns of a row of [users] other than its unique key [email]. *)
Record columns : Set := Columns {
  username : string;
  password : string;
  confirmed : option bool;
  refresh_token : option string
}.

(** The ORM object: the row stored under the key [email]. *)
Record t : Set := Make { email : string; cols : columns }.

Definition set_refresh_token (token : option string) (c : columns) : columns :=
  {| username := username c; password := password c;
     confirmed := confirmed c; refresh_token := token |}.

Definition set_confirmed (b : option bool) (c : columns) : columns :=
  {| username := username c; password := password c;
     confirmed := b; refresh_token := refresh_token c |}.
End User.

(** The body of a signup request. *)
Module UserModel.
Record t : Set := Make { username : string; email : string; password : string }.
End UserModel.

(** The form of a login request: [username] carries the email. *)
Module OAuth2PasswordRequestForm.
Record t : Set := Make { username : string; password : string }.
End OAuth2PasswordRequestForm.

(** The dictionary login and refresh_token return. *)
Module TokenModel.
Record t : Set := Make {
  access_token : string;
  refresh_token : string;
  token_type : string
}.
End TokenModel.

(** The dictionary signup returns. *)
Record signup_content : Set := SignupContent { user : User.t; detail : message }.

(** A task queued on [background_tasks]; it runs after the response is sent. *)
Inductive task : Set :=
  | send_email (email username base_url : string).

(** What the routes read and write: the [users] table through the database
    session, and the queue of background tasks. *)
Record world : Type := World {
  db : gmap string User.columns;
  background_tasks : list task
}.

Definition with_db (d : gmap string User.columns) (w : world) : world :=
  {| db := d; background_tasks := background_tasks w |}.

Definition add_task (t : task) (w : world) : world :=
  {| db := db w; background_tasks := background_tasks w ++ [t] |}.

(** ** The collaborators of the routes *)

(** Modelled from the spec: [src.repository.users] is not among the sources.
    The credential store is keyed-record access by the unique email:
    getByEmail, create (confirmed = false, no refresh token),
    updateRefreshToken and markConfirmed. *)
Module repository_users.
Definition get_user_by_email (email : string) (d : gmap string User.columns)
  : option User.t :=
  User.Make email <$> d !! email.

Definition create_user (body : UserModel.t) (d : gmap string User.columns)
  : User.t * gmap string User.columns :=
  let c := {| User.username := UserModel.username body;
              User.password := UserModel.password body;
              User.confirmed := Some false;
              User.refresh_token := None |} in
  (User.Make (UserModel.email body) c, <[UserModel.email body := c]> d).

Definition update_token (user : User.t) (token : option string)
    (d : gmap string User.columns) : gmap string User.columns :=
  <[User.email user := User.set_refresh_token token (User.cols user)]> d.

Definition confirmed_email (email : string) (d : gmap string User.columns)
  : gmap string User.columns :=
  alter (User.set_confirmed (Some true)) email d.
End repository_users.

(** [src.services.auth.auth_service] is not among the sources: the routes
    are embedded over any implementation of its methods. [Env] is what a
    call reads besides its arguments (the clock for expiry times, the salt
    of a password hash). *)
Record AuthService (Env : Type) : Type := {
  get_password_hash : Env -> string -> string;
  verify_password : string -> string -> bool;
  create_access_token : Env -> string -> option Z -> string;
  create_refresh_token : Env -> string -> option Z -> string;
  decode_refresh_token : Env -> string -> result string;
  get_email_from_token : Env -> string -> result string
}.
Arguments get_password_hash {Env} _ _ _.
Arguments verify_password {Env} _ _ _.
Arguments create_access_token {Env} _ _ _ _.
Arguments create_refresh_token {Env} _ _ _ _.
Arguments decode_refresh_token {Env} _ _ _.
Arguments get_email_from_token {Env} _ _ _.

(** ** The routes *)

Section routes.
Context {Env : Type} (auth_service : AuthService Env).

Definition signup (env : Env) (body : UserModel.t) (base_url : string)
    (w : world) : result (response signup_content) * world :=
  match repository_users.get_user_by_email (UserModel.email body) (db w) with
  | Some _ => (Raise (HTTPException HTTP_409_CONFLICT ALREADY_EXISTS), w)
  | None =>
      let body :=
        UserModel.Make (UserModel.username body) (UserModel.email body)
          (get_password_hash auth_service env (UserModel.password body)) in
      let '(new_user, d) := repository_users.create_user body (db w) in
      let w := with_db d w in
      let w :=
        add_task (send_email (User.email new_user)
                    (User.username (User.cols new_user)) base_url) w in
      (Return (Response HTTP_201_CREATED
                 {| user := new_user; detail := SUCCESS_CREATE_USER |}), w)
  end.

Definition login (env : Env) (body : OAuth2PasswordRequestForm.t)
    (w : world) : result (response TokenModel.t) * world :=
  match repository_users.get_user_by_email
          (OAuth2PasswordRequestForm.username body) (db w) with
  | None => (Raise (HTTPException HTTP_401_UNAUTHORIZED INVALID_EMAIL), w)
  | Some user =>
      if negb (truth (User.confirmed (User.cols user))) then
        (Raise (HTTPException HTTP_401_UNAUTHORIZED EMAIL_NOT_CONFIRMED), w)
      else if negb (verify_password auth_service
                      (OAuth2PasswordRequestForm.password body)
                      (User.password (User.cols user))) then
        (Raise (HTTPException HTTP_401_UNAUTHORIZED INVALID_PASSWORD), w)
      else
        let access_token :=
          create_access_token auth_service env (User.email user) (Some 7200) in
        let refresh_token :=
          create_refresh_token auth_service env (User.email user) None in
        let w :=
          with_db (repository_users.update_token user (Some refresh_token) (db w)) w in
        (Return (Response HTTP_200_OK
                   (TokenModel.Make access_token refresh_token "bearer")), w)
  end.

Definition refresh_token (env : Env) (credentials : string) (w : world)
  : result (response TokenModel.t) * world :=
  let token := credentials in
  match decode_refresh_token auth_service env token with
  | Raise e => (Raise e, w)
  | Return email =>
      match repository_users.get_user_by_email email (db w) with
      | None => (Raise AttributeError, w)
      | Some user =>
          if negb (bool_decide
                     (User.refresh_token (User.cols user) = Some token)) then
            let w := with_db (repository_users.update_token user None (db w)) w in
            (Raise (HTTPException HTTP_401_UNAUTHORIZED INVALID_TOKEN), w)
          else
            let access_token :=
              create_access_token auth_service env email None in
            let refresh_token :=
              create_refresh_token auth_service env email None in
            let w :=
              with_db (repository_users.update_token user (Some refresh_token) (db w)) w in
            (Return (Response HTTP_200_OK
                       (TokenModel.Make access_token refresh_token "bearer")), w)
      end
  end.

Definition confirmed_email (env : Env) (token : string) (w : world)
  : result (response message) * world :=
  match get_email_from_token auth_service env token with
  | Raise e => (Raise e, w)
  | Return email =>
      match repository_users.get_user_by_email email (db w) with
      | None =>
          (Raise (HTTPException HTTP_400_BAD_REQUEST VERIFICATION_ERROR), w)
      | Some user =>
          if truth (User.confirmed (User.cols user)) then
            (Return (Response HTTP_200_OK EMAIL_ALREADY_CONFIRMED), w)
          else
            let w := with_db (repository_users.confirmed_email email (db w)) w in
            (Return (Response HTTP_200_OK EMAIL_CONFIRMED), w)
      end
  end.
End routes.


(** ** Sequences of requests *)

(** One request to one of the four routes, with what the call reads. *)
Inductive operation (Env : Type) : Type :=
  | Signup (env : Env) (body : UserModel.t) (base_url : string)
  | Login (env : Env) (body : OAuth2PasswordRequestForm.t)
  | Refresh (env : Env) (credentials : string)
  | ConfirmEmail (env : Env) (token : string).
Arguments Signup {Env} _ _ _.
Arguments Login {Env} _ _.
Arguments Refresh {Env} _ _.
Arguments ConfirmEmail {Env} _ _.

(** The world a request leaves behind, whatever it answers. *)
Definition run {Env : Type} (auth_service : AuthService Env)
    (o : operation Env) (w : world) : world :=
  match o with
  | Signup env body base_url => snd (signup auth_service env body base_url w)
  | Login env body => snd (login auth_service env body w)
  | Refresh env credentials => snd (refresh_token auth_service env credentials w)
  | ConfirmEmail env token => snd (confirmed_email auth_service env token w)
  end.

(** Requests are served one after the other. *)
Definition run_all {Env : Type} (auth_service : AuthService Env)
    (os : list (operation Env)) (w : world) : world :=
  foldl (fun w o => run auth_service o w) w os.

(** A confirmation request whose token names [email]. *)
Definition confirms {Env : Type} (auth_service : AuthService Env)
    (email : string) (o : operation Env) : Prop :=
  match o with
  | ConfirmEmail env token =>
      get_email_from_token auth_service env token = Return email
  | _ => False
  end.

(** The [confirmed] attribute of the user stored under [email], if any. *)
Definition confirmed_of (email : string) (w : world) : option (option bool) :=
  User.confirmed <$> db w !! email.

(** The exception a result carries, if it is one. *)
Definition exception_of {A : Type} (r : result A) : option exception :=
  match r with
  | Raise e => Some e
  | Return _ => None
  end.

(** What a request raises, if it raises. *)
Definition raised {Env : Type} (auth_service : AuthService Env)
    (o : operation Env) (w : world) : option exception :=
  match o with
  | Signup env body base_url =>
      exception_of (fst (signup auth_service env body base_url w))
  | Login env body => exception_of (fst (login auth_service env body w))
  | Refresh env credentials =>
      exception_of (fst (refresh_token auth_service env credentials w))
  | ConfirmEmail env token =>
      exception_of (fst (confirmed_email auth_service env token w))
  end.

(** The email a request is about: the one of its body, or the one its
    token decodes to. *)
Definition subject {Env : Type} (auth_service : AuthService Env)
    (o : operation Env) : option string :=
  match o with
  | Signup _ body _ => Some (UserModel.email body)
  | Login _ body => Some (OAuth2PasswordRequestForm.username body)
  | Refresh env credentials =>
      match decode_refresh_token auth_service env credentials with
      | Return email => Some email
      | Raise _ => None
      end
  | ConfirmEmail env token =>
      match get_email_from_token auth_service env token with
      | Return email => Some email
      | Raise _ => None
      end
  end.

(** Every stored user that holds a refresh token is confirmed. *)
Definition holders_confirmed (w : world) : Prop :=
  ∀ e c, db w !! e = Some c →
         is_Some (User.refresh_token c) → truth (User.confirmed c) = true.


(** A login request with the email [email]. *)
Definition logs_in {Env : Type} (email : string) (o : operation Env) : Prop :=
  match o with
  | Login _ body => OAuth2PasswordRequestForm.username body = email
  | _ => False
  end.

(** ** The migration 9591ecaee4f4 *)

(** A stored value of a column. *)
Inductive sql_value : Set :=
  | NULL
  | Boolean (b : bool)
  | Text (s : string)
  | Integer (z : Z).

Module sa.
Inductive type_ : Set := Boolean | String | Integer.

(** [sa.Column(name, type_, nullable=...)]; no [server_default] is given
    unless written. *)
Record Column : Set := {
  name : string;
  type : type_;
  nullable : bool;
  server_default : option sql_value
}.
End sa.

(** A table: its column definitions and its rows, a row giving each column
    its value. *)
Record table : Type := Table {
  columns : list sa.Column;
  rows : list (gmap string sql_value)
}.

Definition has_column (c : string) (t : table) : bool :=
  bool_decide (c ∈ sa.name <$> columns t).

(** Every row gives a value to the columns of the table and to nothing
    else. *)
Definition well_formed (t : table) : Prop :=
  Forall (fun r : gmap string sql_value =>
            dom r = list_to_set (sa.name <$> columns t) :> gset string)
    (rows t).

(** Alembic's operations; [None] is the database refusing the statement
    (no such table, a column that exists already or does not exist). *)
Module op.
Definition add_column (table_name : string) (column : sa.Column)
    (d : gmap string table) : option (gmap string table) :=
  match d !! table_name with
  | None => None
  | Some t =>
      if has_column (sa.name column) t then None
      else
        let v := default NULL (sa.server_default column) in
        Some (<[table_name :=
                 {| columns := columns t ++ [column];
                    rows := insert (sa.name column) v <$> rows t |}]> d)
  end.

Definition drop_column (table_name column_name : string)
    (d : gmap string table) : option (gmap string table) :=
  match d !! table_name with
  | None => None
  | Some t =>
      if has_column column_name t then
        Some (<[table_name :=
                 {| columns :=
                      filter (fun c => sa.name c ≠ column_name) (columns t);
                    rows := delete column_name <$> rows t |}]> d)
      else None
  end.
End op.

Definition upgrade (d : gmap string table) : option (gmap string table) :=
  op.add_column "users"
    {| sa.name := "confirmed"; sa.type := sa.Boolean;
       sa.nullable := true; sa.server_default := None |} d.

Definition downgrade (d : gmap string table) : option (gmap string table) :=
  op.drop_column "users" "confirmed" d.

(** How the ORM reads the attribute [confirmed] of a row: SQL NULL is
    Python's [None]. *)
Definition load_confirmed (r : gmap string sql_value) : option bool :=
  match r !! "confirmed" with
  | Some (Boolean b) => Some b
  | _ => None
  end.

Definition load_text (c : string) (r : gmap string sql_value) : option string :=
  match r !! c with
  | Some (Text s) => Some s
  | _ => None
  end.

(** Modelled from the spec: the declaration of the [User] model is not among
    the sources; its attributes are the ones the routes read (email,
    username, password, confirmed, refresh_token). A row of [users] is
    loaded as the key [email] and the remaining columns. *)
Definition load_user (r : gmap string sql_value) : option User.t :=
  e ← load_text "email" r;
  u ← load_text "username" r;
  p ← load_text "password" r;
  Some (User.Make e
          {| User.username := u; User.password := p;
             User.confirmed := load_confirmed r;
             User.refresh_token := load_text "refresh_token" r |}).

(** The session's view of the table: every row that loads, under its email. *)
Definition load_users (t : table) : gmap string User.columns :=
  foldr (fun r d =>
           match load_user r with
           | Some u => <[User.email u := User.cols u]> d
           | None => d
           end) ∅ (rows t).

(** ** A small implementation of the service *)

(** Tokens and hashes that can be computed with: a token is a kind letter,
    a letter read from the environment, and the subject; a hash is the
    environment's letter before the password. *)
Module demo.
Definition make (kind env : Ascii.ascii) (sub : string) : string :=
  String kind (String env sub).

Definition decode (kind : Ascii.ascii) (token : string) : result string :=
  match token with
  | String k (String _ sub) =>
      if Ascii.eqb k kind then Return sub
      else Raise (HTTPException HTTP_401_UNAUTHORIZED INVALID_TOKEN)
  | _ => Raise (HTTPException HTTP_401_UNAUTHORIZED INVALID_TOKEN)
  end.

Definition auth_service : AuthService Ascii.ascii := {|
  get_password_hash env plain := String env plain;
  verify_password plain hashed :=
    match hashed with
    | String _ p => String.eqb plain p
    | EmptyString => false
    end;
  create_access_token env sub _ := make "a"%char env sub;
  create_refresh_token env sub _ := make "r"%char env sub;
  decode_refresh_token _ token := decode "r"%char token;
  get_email_from_token _ token := decode "c"%char token
|}.

Definition body : UserModel.t := UserModel.Make "a" "a@x.com" "pw".
Definition form : OAuth2PasswordRequestForm.t :=
  OAuth2PasswordRequestForm.Make "a@x.com" "pw".
Definition empty : world := World ∅ [].

(** signup, then the confirmation, then a login at environment [env]. *)
Definition signed_up : world :=
  snd (signup auth_service "1"%char body "http://x/" empty).
Definition confirmed : world :=
  snd (confirmed_email auth_service "2"%char (make "c"%char "2"%char "a@x.com") signed_up).
Definition logged_in (env : Ascii.ascii) : world :=
  snd (login auth_service env form confirmed).

(** A [users] table of the revision before the migration, with one row. *)
Definition old_users : gmap string table :=
  {[ "users" :=
       {| columns :=
            [ {| sa.name := "email"; sa.type := sa.String;
                 sa.nullable := false; sa.server_default := None |};
              {| sa.name := "username"; sa.type := sa.String;
                 sa.nullable := false; sa.server_default := None |};
              {| sa.name := "password"; sa.type := sa.String;
                 sa.nullable := false; sa.server_default := None |};
              {| sa.name := "refresh_token"; sa.type := sa.String;
                 sa.nullable := true; sa.server_default := None |} ];
          rows :=
            [ {[ "email" := Text "b@x.com"; "username" := Text "b";
                 "password" := Text "1pw"; "refresh_token" := NULL ]} ] |} ]}.

(** The same table after [upgrade]. *)
Definition migrated : gmap string table := default ∅ (upgrade old_users).
Definition migrated_users : table :=
  default (Table [] []) (migrated !! "users").

(** A [users] table of the revision of the migration, with a confirmed
    user. *)
Definition new_users : gmap string table :=
  {[ "users" :=
       {| columns :=
            [ {| sa.name := "email"; sa.type := sa.String;
                 sa.nullable := false; sa.server_default := None |};
              {| sa.name := "confirmed"; sa.type := sa.Boolean;
                 sa.nullable := true; sa.server_default := None |} ];
          rows :=
            [ {[ "email" := Text "c@x.com"; "confirmed" := Boolean true ]} ]
       |} ]}.

(** The stored columns of the user along the scenario. *)
Definition cols (confirmed : bool) (token : option string) : User.columns :=
  {| User.username := "a"; User.password := "1pw";
     User.confirmed := Some confirmed; User.refresh_token := token |}.
End demo.


(** ** The store *)

Lemma get_user_by_email_Some email d c :
  d !! email = Some c →
  repository_users.get_user_by_email email d = Some (User.Make email c).
Proof. intros H. unfold repository_users.get_user_by_email. by rewrite H. Qed.

Lemma get_user_by_email_None email d :
  d !! email = None → repository_users.get_user_by_email email d = None.
Proof. intros H. unfold repository_users.get_user_by_email. by rewrite H. Qed.

Lemma update_token_lookup email c token d :
  repository_users.update_token (User.Make email c) token d !! email
  = Some (User.set_refresh_token token c).
Proof. unfold repository_users.update_token. simpl. apply lookup_insert_eq. Qed.

Lemma update_token_lookup_ne email c token d e :
  email ≠ e →
  repository_users.update_token (User.Make email c) token d !! e = d !! e.
Proof. intros H. unfold repository_users.update_token. simpl. by apply lookup_insert_ne. Qed.

Lemma confirmed_email_lookup email d e :
  repository_users.confirmed_email email d !! e
  = if decide (email = e) then User.set_confirmed (Some true) <$> d !! e
    else d !! e.
Proof.
  unfold repository_users.confirmed_email. rewrite lookup_alter.
  case_decide; [by subst | done].
Qed.

(** The rows a loaded table holds come from rows of the table. *)
Lemma load_users_lookup t e c :
  load_users t !! e = Some c →
  ∃ r, r ∈ rows t ∧ load_user r = Some (User.Make e c).
Proof.
  unfold load_users. induction (rows t) as [|r rs IH]; simpl.
  - by rewrite lookup_empty.
  - destruct (load_user r) as [[e' c']|] eqn:Hr; simpl.
    + destruct (decide (e' = e)) as [->|Hne].
      * rewrite lookup_insert_eq. intros [= ->].
        exists r. split; [apply list_elem_of_here | done].
      * rewrite lookup_insert_ne by done. intros H.
        destruct (IH H) as (r' & Hin & Hl).
        exists r'. split; [by apply list_elem_of_further | done].
    + intros H. destruct (IH H) as (r' & Hin & Hl).
      exists r'. split; [by apply list_elem_of_further | done].
Qed.

Lemma load_user_confirmed r u :
  load_user r = Some u → User.confirmed (User.cols u) = load_confirmed r.
Proof.
  unfold load_user. intros H.
  destruct (load_text "email" r); simpl in H; [|done].
  destruct (load_text "username" r); simpl in H; [|done].
  destruct (load_text "password" r); simpl in H; [|done].
  by injection H as <-.
Qed.

(** The rows of [users] after the migration are the old rows with
    [confirmed] set to NULL. *)
Lemma upgrade_rows d d' t' :
  upgrade d = Some d' → d' !! "users" = Some t' →
  ∃ t, d !! "users" = Some t ∧ has_column "confirmed" t = false
       ∧ rows t' = insert "confirmed" NULL <$> rows t.
Proof.
  unfold upgrade, op.add_column. simpl.
  destruct (d !! "users") as [t|] eqn:Ht; [|done].
  destruct (has_column "confirmed" t) eqn:Hc; [done|].
  intros [= <-]. rewrite lookup_insert_eq. intros [= <-].
  by exists t.
Qed.

(** ** One request, seen from one stored user *)

Section steps.
Context {Env : Type} (auth_service : AuthService Env).

(** Whatever the request, a stored user stays stored, with the same
    username and password hash; its [confirmed] attribute is unchanged, or
    the request is a confirmation for that user, the attribute was not true
    and is now true. *)
Lemma run_lookup (o : operation Env) (w : world) (e : string) (c : User.columns) :
  db w !! e = Some c →
  ∃ c', db (run auth_service o w) !! e = Some c'
        ∧ User.username c' = User.username c
        ∧ User.password c' = User.password c
        ∧ (User.confirmed c' = User.confirmed c
           ∨ (confirms auth_service e o
              ∧ truth (User.confirmed c) = false
              ∧ User.confirmed c' = Some true)).
Proof.
  intros Hc. destruct o as [env body url|env body|env cred|env token]; simpl.
  - unfold signup, repository_users.get_user_by_email.
    destruct (db w !! UserModel.email body) as [c0|] eqn:Hb; simpl.
    + exists c. auto.
    + exists c. rewrite lookup_insert_ne by congruence. auto.
  - unfold login, repository_users.get_user_by_email.
    destruct (db w !! OAuth2PasswordRequestForm.username body) as [c0|] eqn:Hb;
      simpl; [|by exists c; auto].
    destruct (negb (truth (User.confirmed c0))); simpl; [by exists c; auto|].
    destruct (negb (verify_password _ _ _)); simpl; [by exists c; auto|].
    destruct (decide (OAuth2PasswordRequestForm.username body = e)) as [He|He].
    + rewrite He in *. rewrite update_token_lookup.
      assert (c0 = c) as -> by congruence.
      eexists. split; [done|]. simpl. tauto.
    + rewrite update_token_lookup_ne by done. exists c; auto.
  - unfold refresh_token.
    destruct (decode_refresh_token _ _ _) as [email|err]; simpl;
      [|by exists c; auto].
    unfold repository_users.get_user_by_email.
    destruct (db w !! email) as [c0|] eqn:Hb; simpl; [|by exists c; auto].
    destruct (decide (email = e)) as [He|He].
    + rewrite He in *. assert (c0 = c) as -> by congruence.
      destruct (negb _); simpl; rewrite update_token_lookup;
        (eexists; split; [done|]); simpl; tauto.
    + destruct (negb _); simpl; rewrite update_token_lookup_ne by done;
        exists c; auto.
  - unfold confirmed_email.
    destruct (get_email_from_token _ _ _) as [email|err] eqn:Hd; simpl;
      [|by exists c; auto].
    unfold repository_users.get_user_by_email.
    destruct (db w !! email) as [c0|] eqn:Hb; simpl; [|by exists c; auto].
    destruct (truth (User.confirmed c0)) eqn:Ht; simpl; [by exists c; auto|].
    rewrite confirmed_email_lookup. case_decide as He.
    + rewrite He in *. assert (c0 = c) as -> by congruence.
      rewrite Hc. simpl. eexists. split; [done|]. simpl. tauto.
    + exists c; auto.
Qed.

(** A request that is not a confirmation for the user leaves the user's
    [confirmed] attribute as it was. *)
Lemma run_other_confirmed (o : operation Env) (w : world) (e : string) :
  is_Some (db w !! e) → ¬ confirms auth_service e o →
  confirmed_of e (run auth_service o w) = confirmed_of e w.
Proof.
  intros [c Hc] Hn. destruct (run_lookup o w e c Hc) as (c' & H' & _ & _ & Hk).
  unfold confirmed_of. rewrite H', Hc. simpl.
  destruct Hk as [->|[? _]]; done.
Qed.

(** No request makes a confirmed user unconfirmed. *)
Lemma run_keeps_confirmed (o : operation Env) (w : world) (e : string) :
  confirmed_of e w = Some (Some true) →
  confirmed_of e (run auth_service o w) = Some (Some true).
Proof.
  unfold confirmed_of. intros H.
  destruct (db w !! e) as [c|] eqn:Hc; [|done]. simpl in H.
  destruct (run_lookup o w e c Hc) as (c' & -> & _ & _ & Hk). simpl.
  destruct Hk as [->|(_ & _ & ->)]; done.
Qed.


(** A request that is not a login of the user leaves a stored user that has
    no refresh token stored and without one. *)
Lemma run_no_login (o : operation Env) (w : world) (email : string)
    (c : User.columns) :
  db w !! email = Some c →
  User.refresh_token c = None →
  ¬ logs_in email o →
  ∃ c', db (run auth_service o w) !! email = Some c'
        ∧ User.refresh_token c' = None.
Proof.
  intros Hc Hn Hl.
  destruct o as [env body url|env body|env cred|env token]; simpl in *.
  - unfold signup, repository_users.get_user_by_email.
    destruct (db w !! UserModel.email body) as [c0|] eqn:Hb; simpl.
    + by exists c.
    + exists c. rewrite lookup_insert_ne by congruence. done.
  - unfold login, repository_users.get_user_by_email.
    destruct (db w !! OAuth2PasswordRequestForm.username body) as [c0|] eqn:Hb;
      simpl; [|by exists c].
    destruct (negb (truth (User.confirmed c0))); simpl; [by exists c|].
    destruct (negb (verify_password _ _ _)); simpl; [by exists c|].
    rewrite update_token_lookup_ne by done. by exists c.
  - unfold refresh_token.
    destruct (decode_refresh_token _ _ _) as [e2|err] eqn:Hd; simpl;
      [|by exists c].
    unfold repository_users.get_user_by_email.
    destruct (db w !! e2) as [c0|] eqn:Hb; simpl; [|by exists c].
    destruct (decide (e2 = email)) as [He|He].
    + rewrite He in *. assert (c0 = c) as -> by congruence.
      rewrite Hn. rewrite bool_decide_eq_false_2 by done. simpl.
      rewrite update_token_lookup. by eexists.
    + destruct (negb _); simpl; rewrite update_token_lookup_ne by done;
        by exists c.
  - unfold confirmed_email.
    destruct (get_email_from_token _ _ _) as [e2|err]; simpl; [|by exists c].
    unfold repository_users.get_user_by_email.
    destruct (db w !! e2) as [c0|] eqn:Hb; simpl; [|by exists c].
    destruct (truth (User.confirmed c0)); simpl; [by exists c|].
    rewrite confirmed_email_lookup. case_decide as He; [|by exists c].
    rewrite Hc. simpl. by eexists.
Qed.

Lemma run_all_no_login (os : list (operation Env)) (w : world)
    (email : string) (c : User.columns) :
  db w !! email = Some c →
  User.refresh_token c = None →
  Forall (fun o => ¬ logs_in email o) os →
  ∃ c', db (run_all auth_service os w) !! email = Some c'
        ∧ User.refresh_token c' = None.
Proof.
  revert w c. induction os as [|o os IH]; intros w c Hc Hn Hos;
    [by exists c|].
  inversion Hos as [|? ? Ho Hos']; subst. simpl.
  destruct (run_no_login o w email c Hc Hn Ho) as (c1 & H1 & Hn1).
  by apply (IH _ c1).
Qed.
End steps.


(** ** The properties of the routes *)

Section properties.
Context {Env : Type} (auth_service : AuthService Env).


(** C2. login answers 401 for an absent user, then for a user whose email
    is not confirmed, whatever the password, then for a password that does
    not verify against the stored hash; each check is reached only when the
    ones before it pass, and none of them changes the world. *)
Theorem login_checks_in_order
    (env : Env) (body : OAuth2PasswordRequestForm.t) (w : world) :
  let email := OAuth2PasswordRequestForm.username body in
  (db w !! email = None →
   login auth_service env body w = (Unauthorized INVALID_EMAIL, w))
  ∧ (∀ c, db w !! email = Some c →
          truth (User.confirmed c) = false →
          login auth_service env body w = (Unauthorized EMAIL_NOT_CONFIRMED, w))
  ∧ (∀ c, db w !! email = Some c →
          truth (User.confirmed c) = true →
          verify_password auth_service
            (OAuth2PasswordRequestForm.password body) (User.password c) = false →
          login auth_service env body w = (Unauthorized INVALID_PASSWORD, w)).
Proof.
  intros email. subst email. unfold login. repeat split.
  - intros H. by rewrite (get_user_by_email_None _ _ H).
  - intros c H Hc. rewrite (get_user_by_email_Some _ _ _ H). simpl.
    by rewrite Hc.
  - intros c H Hc Hv. rewrite (get_user_by_email_Some _ _ _ H). simpl.
    by rewrite Hc, Hv.
Qed.

(** C3. signup with an email that is registered answers 409 and leaves the
    world as it was; so whatever a first signup answered, a second signup
    with the same email answers 409 and changes nothing. *)
Theorem signup_registered_email_conflict
    (env : Env) (body : UserModel.t) (base_url : string) (w : world) :
  (is_Some (db w !! UserModel.email body) →
   signup auth_service env body base_url w
   = (Raise (HTTPException HTTP_409_CONFLICT ALREADY_EXISTS), w))
  ∧ (∀ env' body' base_url',
       UserModel.email body' = UserModel.email body →
       let w1 := snd (signup auth_service env body base_url w) in
       signup auth_service env' body' base_url' w1
       = (Raise (HTTPException HTTP_409_CONFLICT ALREADY_EXISTS), w1)).
Proof.
  assert (∀ env0 body0 url0 w0,
            is_Some (db w0 !! UserModel.email body0) →
            signup auth_service env0 body0 url0 w0
            = (Raise (HTTPException HTTP_409_CONFLICT ALREADY_EXISTS), w0)) as Hdup.
  { intros env0 body0 url0 w0 [c Hc]. unfold signup.
    by rewrite (get_user_by_email_Some _ _ _ Hc). }
  split; [apply Hdup|].
  intros env' body' url' He w1. apply Hdup. rewrite He. subst w1.
  unfold signup, repository_users.get_user_by_email.
  destruct (db w !! UserModel.email body) as [c|] eqn:Hc; simpl.
  - by rewrite Hc.
  - by rewrite lookup_insert_eq.
Qed.

(** C4. refresh_token with a token that decodes to a stored user whose
    stored refresh token is another one answers 401 and sets the user's
    stored refresh token to null; nothing else in the world changes. *)
Theorem refresh_mismatch_clears_token
    (env : Env) (token email : string) (w : world) (c : User.columns) :
  decode_refresh_token auth_service env token = Return email →
  db w !! email = Some c →
  User.refresh_token c ≠ Some token →
  refresh_token auth_service env token w
  = (Unauthorized INVALID_TOKEN,
     with_db (<[email := User.set_refresh_token None c]> (db w)) w)
  ∧ User.refresh_token
      <$> db (snd (refresh_token auth_service env token w)) !! email
    = Some None.
Proof.
  intros Hd Hc Hne.
  assert (refresh_token auth_service env token w
          = (Unauthorized INVALID_TOKEN,
             with_db (<[email := User.set_refresh_token None c]> (db w)) w)) as ->.
  { unfold refresh_token. rewrite Hd, (get_user_by_email_Some _ _ _ Hc). simpl.
    by rewrite bool_decide_eq_false_2. }
  split; [done|]. simpl. by rewrite lookup_insert_eq.
Qed.

(** C5. confirmed_email for a user that is confirmed answers with the
    message EMAIL_ALREADY_CONFIRMED and leaves the world as it was; after a
    confirmation that succeeded, the same token, read as the same email,
    gets that answer and changes nothing; and serving the same request
    twice leaves the world the first one left. *)
Theorem confirm_confirmed_email_is_noop
    (env : Env) (token : string) (w : world) :
  (∀ email c,
     get_email_from_token auth_service env token = Return email →
     db w !! email = Some c →
     truth (User.confirmed c) = true →
     confirmed_email auth_service env token w
     = (Return (Response HTTP_200_OK EMAIL_ALREADY_CONFIRMED), w))
  ∧ (∀ r w1 env',
       confirmed_email auth_service env token w = (Return r, w1) →
       get_email_from_token auth_service env' token
       = get_email_from_token auth_service env token →
       confirmed_email auth_service env' token w1
       = (Return (Response HTTP_200_OK EMAIL_ALREADY_CONFIRMED), w1))
  ∧ run auth_service (ConfirmEmail env token)
      (run auth_service (ConfirmEmail env token) w)
    = run auth_service (ConfirmEmail env token) w.
Proof.
  assert (∀ env0 w0 email c,
            get_email_from_token auth_service env0 token = Return email →
            db w0 !! email = Some c →
            truth (User.confirmed c) = true →
            confirmed_email auth_service env0 token w0
            = (Return (Response HTTP_200_OK EMAIL_ALREADY_CONFIRMED), w0)) as Hdone.
  { intros env0 w0 email c Hd Hc Ht. unfold confirmed_email.
    rewrite Hd, (get_user_by_email_Some _ _ _ Hc). simpl. by rewrite Ht. }
  assert (∀ r w1,
            confirmed_email auth_service env token w = (Return r, w1) →
            ∃ email c, get_email_from_token auth_service env token = Return email
                       ∧ db w1 !! email = Some c
                       ∧ truth (User.confirmed c) = true) as Hafter.
  { intros r w1. unfold confirmed_email.
    destruct (get_email_from_token auth_service env token) as [email|err];
      [|done].
    unfold repository_users.get_user_by_email.
    destruct (db w !! email) as [c|] eqn:Hc; simpl; [|done].
    destruct (truth (User.confirmed c)) eqn:Ht; intros [= <- <-].
    - by exists email, c.
    - exists email, (User.set_confirmed (Some true) c). split; [done|].
      simpl. rewrite confirmed_email_lookup, decide_True by done.
      by rewrite Hc. }
  split; [apply Hdone|]. split.
  - intros r w1 env' H He. destruct (Hafter r w1 H) as (email & c & Hd & Hc & Ht).
    apply (Hdone env' w1 email c); [by rewrite He|done..].
  - simpl. destruct (confirmed_email auth_service env token w) as [[r|err] w1] eqn:H.
    + destruct (Hafter r w1 eq_refl) as (email & c & Hd & Hc & Ht). simpl.
      by rewrite (Hdone env w1 email c Hd Hc Ht).
    + simpl. assert (w1 = w) as ->.
      { revert H. unfold confirmed_email.
        destruct (get_email_from_token auth_service env token) as [email|err'];
          [|by intros [= _ <-]].
        destruct (repository_users.get_user_by_email email (db w)) as [u|];
          [|by intros [= _ <-]].
        destruct (truth _); by intros [=]. }
      by rewrite H.
Qed.

(** C6. signup with an email that is not registered stores a user whose
    password attribute is the hash of the supplied password, not confirmed
    and without a refresh token, queues the confirmation email behind the
    tasks already queued, and answers 201 with the created user; the
    supplied password reaches the answer and the world through its hash
    only. *)
Theorem signup_creates_user
    (env : Env) (body : UserModel.t) (base_url : string) (w : world) :
  db w !! UserModel.email body = None →
  let hash := get_password_hash auth_service env (UserModel.password body) in
  let c := {| User.username := UserModel.username body;
              User.password := hash;
              User.confirmed := Some false;
              User.refresh_token := None |} in
  signup auth_service env body base_url w
  = (Return (Response HTTP_201_CREATED
               {| user := User.Make (UserModel.email body) c;
                  detail := SUCCESS_CREATE_USER |}),
     {| db := <[UserModel.email body := c]> (db w);
        background_tasks :=
          background_tasks w
          ++ [send_email (UserModel.email body) (UserModel.username body)
                base_url] |})
  ∧ (∀ plain,
       get_password_hash auth_service env plain = hash →
       signup auth_service env
         (UserModel.Make (UserModel.username body) (UserModel.email body) plain)
         base_url w
       = signup auth_service env body base_url w).
Proof.
  intros H hash c. unfold signup. simpl.
  rewrite (get_user_by_email_None _ _ H). simpl.
  split; [done|]. intros plain Hp. by rewrite Hp.
Qed.

Lemma run_all_other_confirmed (os : list (operation Env)) (w : world)
    (e : string) (v : option bool) :
  confirmed_of e w = Some v →
  Forall (fun o => ¬ confirms auth_service e o) os →
  confirmed_of e (run_all auth_service os w) = Some v.
Proof.
  revert w. induction os as [|o os IH]; intros w Hv Hos; [done|].
  inversion Hos as [|? ? Ho Hos']; subst. simpl. apply IH; [|done].
  rewrite run_other_confirmed; [done| |done].
  unfold confirmed_of in Hv. by destruct (db w !! e).
Qed.

Lemma run_all_keeps_confirmed (os : list (operation Env)) (w : world)
    (e : string) :
  confirmed_of e w = Some (Some true) →
  confirmed_of e (run_all auth_service os w) = Some (Some true).
Proof.
  revert w. induction os as [|o os IH]; intros w H; [done|].
  simpl. apply IH. by apply run_keeps_confirmed.
Qed.

(** C7. For every request to signup, login, refresh_token or
    confirmed_email, a user whose confirmed attribute is true before it has
    it true after it; when the attribute of a stored user changes, the
    request is a confirmation for that user, the attribute was not true
    before and is true after; so over any sequence of requests a user that
    is confirmed stays confirmed. *)
Theorem confirmed_flag_is_monotone
    (o : operation Env) (w : world) (e : string) :
  (confirmed_of e w = Some (Some true) →
   confirmed_of e (run auth_service o w) = Some (Some true))
  ∧ (∀ c, db w !! e = Some c →
          confirmed_of e (run auth_service o w) ≠ Some (User.confirmed c) →
          confirms auth_service e o
          ∧ truth (User.confirmed c) = false
          ∧ confirmed_of e (run auth_service o w) = Some (Some true))
  ∧ (∀ os, confirmed_of e w = Some (Some true) →
           confirmed_of e (run_all auth_service (o :: os) w) = Some (Some true)).
Proof.
  split; [apply run_keeps_confirmed|]. split.
  - intros c Hc. unfold confirmed_of.
    destruct (run_lookup auth_service o w e c Hc) as (c' & -> & _ & _ & Hk).
    simpl. destruct Hk as [->|(? & ? & ->)]; [done|]. by intros _.
  - intros os. apply run_all_keeps_confirmed.
Qed.

(** C8 as amended. The confirmed column is a nullable boolean without a
    default in the database: every row of users that the migration finds
    holds NULL afterwards and is loaded with confirmed = None, and login
    answers such a user as not confirmed; a user created by signup has
    confirmed = false and keeps it over every sequence of requests that
    holds no confirmation for that user. *)
Theorem confirmed_is_false_or_null :
  (∀ d d' t' r,
     upgrade d = Some d' → d' !! "users" = Some t' → r ∈ rows t' →
     r !! "confirmed" = Some NULL ∧ load_confirmed r = None)
  ∧ (∀ d d' t' email c,
       upgrade d = Some d' → d' !! "users" = Some t' →
       load_users t' !! email = Some c →
       User.confirmed c = None)
  ∧ (∀ env body w c,
       db w !! OAuth2PasswordRequestForm.username body = Some c →
       User.confirmed c = None →
       login auth_service env body w = (Unauthorized EMAIL_NOT_CONFIRMED, w))
  ∧ (∀ env body base_url w r w1 os,
       signup auth_service env body base_url w = (Return r, w1) →
       Forall (fun o => ¬ confirms auth_service (UserModel.email body) o) os →
       confirmed_of (UserModel.email body) w1 = Some (Some false)
       ∧ confirmed_of (UserModel.email body) (run_all auth_service os w1)
         = Some (Some false)).
Proof.
  assert (∀ d d' t' r,
            upgrade d = Some d' → d' !! "users" = Some t' → r ∈ rows t' →
            r !! "confirmed" = Some NULL ∧ load_confirmed r = None) as Hrows.
  { intros d d' t' r Hu Ht Hr.
    destruct (upgrade_rows d d' t' Hu Ht) as (t & _ & _ & Heq).
    rewrite Heq in Hr. apply list_elem_of_fmap in Hr as (r0 & -> & _).
    unfold load_confirmed. by rewrite lookup_insert_eq. }
  split; [exact Hrows|]. split; [|split].
  - intros d d' t' email c Hu Ht Hl.
    destruct (load_users_lookup t' email c Hl) as (r & Hr & Hload).
    pose proof (load_user_confirmed r _ Hload) as Hk. simpl in Hk.
    rewrite Hk. by destruct (Hrows d d' t' r Hu Ht Hr).
  - intros env body w c Hc Hn. unfold login.
    rewrite (get_user_by_email_Some _ _ _ Hc). simpl. by rewrite Hn.
  - intros env body url w r w1 os Hs Hos.
    assert (confirmed_of (UserModel.email body) w1 = Some (Some false)) as H1.
    { revert Hs. unfold signup, repository_users.get_user_by_email.
      destruct (db w !! UserModel.email body); simpl; [done|].
      intros [= _ <-]. unfold confirmed_of. simpl.
      by rewrite lookup_insert_eq. }
    split; [done|]. by apply run_all_other_confirmed.
Qed.

(** C9. When the presented token decodes to an email that no stored user
    has, refresh_token reads an attribute of None: the request ends in an
    AttributeError, which is not the 401 answer, and the world is as it
    was. When the email has a stored user, the request is answered, with
    new tokens or with 401. *)
Theorem refresh_unknown_subject_is_unhandled
    (env : Env) (token email : string) (w : world) :
  decode_refresh_token auth_service env token = Return email →
  (db w !! email = None →
   refresh_token auth_service env token w = (Raise AttributeError, w)
   ∧ ∀ detail,
       fst (refresh_token auth_service env token w) ≠ Unauthorized detail)
  ∧ (is_Some (db w !! email) →
     (∃ r w', refresh_token auth_service env token w = (Return r, w'))
     ∨ (∃ w', refresh_token auth_service env token w
              = (Unauthorized INVALID_TOKEN, w'))).
Proof.
  intros Hd. unfold refresh_token. rewrite Hd. split.
  - intros H. rewrite (get_user_by_email_None _ _ H). by split.
  - intros [c Hc]. rewrite (get_user_by_email_Some _ _ _ Hc).
    destruct (negb _); eauto.
Qed.

(** C10. A login that raises leaves the world as it was, and what it raises
    is one of the three 401 answers; so a login that changes the stored
    refresh token of a user has passed the three checks and returned. *)
Theorem login_failure_changes_nothing
    (env : Env) (body : OAuth2PasswordRequestForm.t) (w : world)
    (e : exception) (w' : world) :
  login auth_service env body w = (Raise e, w') →
  w' = w
  ∧ (e = HTTPException HTTP_401_UNAUTHORIZED INVALID_EMAIL
     ∨ e = HTTPException HTTP_401_UNAUTHORIZED EMAIL_NOT_CONFIRMED
     ∨ e = HTTPException HTTP_401_UNAUTHORIZED INVALID_PASSWORD).
Proof.
  unfold login.
  destruct (repository_users.get_user_by_email _ _) as [u|];
    [|intros [= <- <-]; auto].
  destruct (negb (truth _)); [intros [= <- <-]; auto|].
  destruct (negb (verify_password _ _ _)); [intros [= <- <-]; auto|].
  intros [=].
Qed.
End properties.


(** ** The properties on a concrete run *)

(** The routes run on the small implementation of the service: a user signs
    up, confirms the email and logs in twice; another table is migrated. *)



Lemma login_checks_in_order_witness :
  login demo.auth_service "3"%char demo.form demo.empty
  = (Raise (HTTPException HTTP_401_UNAUTHORIZED INVALID_EMAIL), demo.empty)
  ∧ login demo.auth_service "3"%char demo.form demo.signed_up
    = (Raise (HTTPException HTTP_401_UNAUTHORIZED EMAIL_NOT_CONFIRMED),
       demo.signed_up)
  ∧ login demo.auth_service "3"%char
      (OAuth2PasswordRequestForm.Make "a@x.com" "wrong") demo.confirmed
    = (Raise (HTTPException HTTP_401_UNAUTHORIZED INVALID_PASSWORD),
       demo.confirmed).
Proof.
  split; [|split].
  - apply (proj1 (login_checks_in_order demo.auth_service "3"%char
                    demo.form demo.empty)).
    vm_compute; reflexivity.
  - apply (proj1 (proj2 (login_checks_in_order demo.auth_service "3"%char
                           demo.form demo.signed_up))
             (demo.cols false None)).
    + vm_compute; reflexivity.
    + reflexivity.
  - apply (proj2 (proj2 (login_checks_in_order demo.auth_service "3"%char
                           (OAuth2PasswordRequestForm.Make "a@x.com" "wrong")
                           demo.confirmed))
             (demo.cols true None)).
    + vm_compute; reflexivity.
    + reflexivity.
    + reflexivity.
Defined.

Lemma signup_registered_email_conflict_witness :
  signup demo.auth_service "2"%char demo.body "http://x/" demo.signed_up
  = (Raise (HTTPException HTTP_409_CONFLICT ALREADY_EXISTS), demo.signed_up)
  ∧ signup demo.auth_service "2"%char
      (UserModel.Make "other" "a@x.com" "pw2") "http://y/" demo.signed_up
    = (Raise (HTTPException HTTP_409_CONFLICT ALREADY_EXISTS), demo.signed_up).
Proof.
  split.
  - apply (proj1 (signup_registered_email_conflict demo.auth_service "2"%char
                    demo.body "http://x/" demo.signed_up)).
    exists (demo.cols false None). vm_compute; reflexivity.
  - apply (proj2 (signup_registered_email_conflict demo.auth_service "1"%char
                    demo.body "http://x/" demo.empty)
             "2"%char (UserModel.Make "other" "a@x.com" "pw2") "http://y/").
    reflexivity.
Defined.

Lemma refresh_mismatch_clears_token_witness :
  db (demo.logged_in "4"%char) !! "a@x.com"
  = Some (demo.cols true (Some "r4a@x.com"))
  ∧ fst (refresh_token demo.auth_service "5"%char "r3a@x.com"
           (demo.logged_in "4"%char))
    = Raise (HTTPException HTTP_401_UNAUTHORIZED INVALID_TOKEN)
  ∧ User.refresh_token
      <$> db (snd (refresh_token demo.auth_service "5"%char "r3a@x.com"
                     (demo.logged_in "4"%char))) !! "a@x.com"
    = Some None.
Proof.
  assert (db (demo.logged_in "4"%char) !! "a@x.com"
          = Some (demo.cols true (Some "r4a@x.com"))) as H
    by (vm_compute; reflexivity).
  split; [exact H|].
  destruct (refresh_mismatch_clears_token demo.auth_service "5"%char
              "r3a@x.com" "a@x.com" (demo.logged_in "4"%char)
              (demo.cols true (Some "r4a@x.com")) eq_refl H) as [H1 H2].
  - discriminate.
  - split; [by rewrite H1 | exact H2].
Defined.

Lemma confirm_confirmed_email_is_noop_witness :
  confirmed_email demo.auth_service "3"%char "c2a@x.com" demo.confirmed
  = (Return (Response HTTP_200_OK EMAIL_ALREADY_CONFIRMED), demo.confirmed).
Proof.
  apply (proj1 (confirm_confirmed_email_is_noop demo.auth_service "3"%char
                  "c2a@x.com" demo.confirmed)
           "a@x.com" (demo.cols true None)).
  - reflexivity.
  - vm_compute; reflexivity.
  - reflexivity.
Defined.

Lemma signup_creates_user_witness :
  db demo.empty !! "a@x.com" = None
  ∧ signup demo.auth_service "1"%char demo.body "http://x/" demo.empty
    = (Return (Response HTTP_201_CREATED
                 {| user := User.Make "a@x.com" (demo.cols false None);
                    detail := SUCCESS_CREATE_USER |}),
       {| db := <["a@x.com" := demo.cols false None]> ∅;
          background_tasks := [send_email "a@x.com" "a" "http://x/"] |}).
Proof.
  assert (db demo.empty !! "a@x.com" = None) as H by (vm_compute; reflexivity).
  split; [exact H|].
  exact (proj1 (signup_creates_user demo.auth_service "1"%char demo.body
                  "http://x/" demo.empty H)).
Defined.

Lemma confirmed_flag_is_monotone_witness :
  confirmed_of "a@x.com"
    (run demo.auth_service (Login "3"%char demo.form) demo.confirmed)
  = Some (Some true)
  ∧ confirms demo.auth_service "a@x.com"
      (ConfirmEmail "2"%char "c2a@x.com").
Proof.
  split.
  - apply (proj1 (confirmed_flag_is_monotone demo.auth_service
                    (Login "3"%char demo.form) demo.confirmed "a@x.com")).
    vm_compute; reflexivity.
  - apply (proj1 (proj2 (confirmed_flag_is_monotone demo.auth_service
                           (ConfirmEmail "2"%char "c2a@x.com")
                           demo.signed_up "a@x.com"))
             (demo.cols false None)).
    + vm_compute; reflexivity.
    + vm_compute. discriminate.
Defined.

(** C8 as stated fails: the row of users that the migration finds is loaded
    with confirmed = None, which is not false. *)
Lemma migrated_user_confirmed_is_null :
  upgrade demo.old_users = Some demo.migrated
  ∧ demo.migrated !! "users" = Some demo.migrated_users
  ∧ User.confirmed <$> load_users demo.migrated_users !! "b@x.com" = Some None
  ∧ User.confirmed <$> load_users demo.migrated_users !! "b@x.com"
    ≠ Some (Some false).
Proof.
  assert (User.confirmed <$> load_users demo.migrated_users !! "b@x.com"
          = Some None) as H by (vm_compute; reflexivity).
  split; [vm_compute; reflexivity|].
  split; [vm_compute; reflexivity|].
  split; [exact H|].
  rewrite H. discriminate.
Qed.

Lemma confirmed_is_false_or_null_witness :
  User.confirmed
    {| User.username := "b"; User.password := "1pw";
       User.confirmed := None; User.refresh_token := None |} = None
  ∧ confirmed_of "a@x.com"
      (run_all demo.auth_service
         [Login "3"%char demo.form; Refresh "4"%char "r3a@x.com"]
         demo.signed_up)
    = Some (Some false).
Proof.
  split.
  - apply (proj1 (proj2 (confirmed_is_false_or_null demo.auth_service))
             demo.old_users demo.migrated demo.migrated_users "b@x.com").
    + vm_compute; reflexivity.
    + vm_compute; reflexivity.
    + vm_compute; reflexivity.
  - apply (proj2 (proj2 (proj2 (confirmed_is_false_or_null demo.auth_service)))
             "1"%char demo.body "http://x/" demo.empty
             (Response HTTP_201_CREATED
                {| user := User.Make "a@x.com" (demo.cols false None);
                   detail := SUCCESS_CREATE_USER |})
             demo.signed_up).
    + vm_compute; reflexivity.
    + repeat constructor; simpl; tauto.
Defined.

Lemma refresh_unknown_subject_is_unhandled_witness :
  db (demo.logged_in "3"%char) !! "b@x.com" = None
  ∧ refresh_token demo.auth_service "4"%char "r2b@x.com"
      (demo.logged_in "3"%char)
    = (Raise AttributeError, demo.logged_in "3"%char).
Proof.
  assert (db (demo.logged_in "3"%char) !! "b@x.com" = None) as H
    by (vm_compute; reflexivity).
  split; [exact H|].
  exact (proj1 (proj1 (refresh_unknown_subject_is_unhandled demo.auth_service
                         "4"%char "r2b@x.com" "b@x.com"
                         (demo.logged_in "3"%char) eq_refl) H)).
Defined.

Lemma login_failure_changes_nothing_witness :
  login demo.auth_service "3"%char demo.form demo.signed_up
  = (Raise (HTTPException HTTP_401_UNAUTHORIZED EMAIL_NOT_CONFIRMED),
     demo.signed_up)
  ∧ demo.signed_up = demo.signed_up.
Proof.
  assert (login demo.auth_service "3"%char demo.form demo.signed_up
          = (Raise (HTTPException HTTP_401_UNAUTHORIZED EMAIL_NOT_CONFIRMED),
             demo.signed_up)) as H by (vm_compute; reflexivity).
  split; [exact H|].
  exact (proj1 (login_failure_changes_nothing demo.auth_service "3"%char
                  demo.form demo.signed_up _ _ H)).
Defined.


(** ** Further properties of the routes *)

Section further.
Context {Env : Type} (auth_service : AuthService Env).

(** A stored user seen after a request, when the request is about another
    email. *)
Lemma run_lookup_other (o : operation Env) (w : world) (e : string) :
  subject auth_service o ≠ Some e →
  db (run auth_service o w) !! e = db w !! e.
Proof.
  destruct o as [env body url|env body|env cred|env token]; simpl; intros Hs.
  - unfold signup, repository_users.get_user_by_email.
    destruct (db w !! UserModel.email body); simpl; [done|].
    apply lookup_insert_ne. congruence.
  - unfold login, repository_users.get_user_by_email.
    destruct (db w !! OAuth2PasswordRequestForm.username body); simpl; [|done].
    destruct (negb (truth _)); [done|].
    destruct (negb (verify_password _ _ _)); [done|].
    simpl. apply update_token_lookup_ne. congruence.
  - unfold refresh_token.
    destruct (decode_refresh_token _ _ _) as [email|err]; [|done].
    unfold repository_users.get_user_by_email.
    destruct (db w !! email); simpl; [|done].
    destruct (negb _); simpl; apply update_token_lookup_ne; congruence.
  - unfold confirmed_email.
    destruct (get_email_from_token _ _ _) as [email|err]; [|done].
    unfold repository_users.get_user_by_email.
    destruct (db w !! email); simpl; [|done].
    destruct (truth _); simpl; [done|].
    rewrite confirmed_email_lookup, decide_False; [done|congruence].
Qed.

(** The stored emails after a request. *)
Lemma run_dom (o : operation Env) (w : world) :
  dom (db (run auth_service o w))
  = dom (db w) ∪ match o with
                 | Signup _ body _ => {[UserModel.email body]}
                 | _ => ∅
                 end.
Proof.
  apply set_eq. intros e. rewrite elem_of_union, !elem_of_dom.
  destruct (decide (subject auth_service o = Some e)) as [Hs|Hs].
  - split.
    + intros [c' H]. destruct (db w !! e) as [c|] eqn:Hc; [by left|right].
      destruct o as [env body url|env body|env cred|env token]; simpl in *.
      * injection Hs as ->. set_solver.
      * injection Hs as Hs. exfalso. revert H. unfold login.
        rewrite Hs, (get_user_by_email_None _ _ Hc). simpl. by rewrite Hc.
      * exfalso. revert H. unfold refresh_token.
        destruct (decode_refresh_token _ _ _) as [email|err]; [|done].
        injection Hs as ->. rewrite (get_user_by_email_None _ _ Hc). simpl.
        by rewrite Hc.
      * exfalso. revert H. unfold confirmed_email.
        destruct (get_email_from_token _ _ _) as [email|err]; [|done].
        injection Hs as ->. rewrite (get_user_by_email_None _ _ Hc). simpl.
        by rewrite Hc.
    + intros [[c Hc]|He].
      * destruct (run_lookup auth_service o w e c Hc) as (c' & H' & _).
        by exists c'.
      * destruct o as [env body url|env body|env cred|env token];
          try set_solver.
        apply elem_of_singleton in He as ->. simpl.
        unfold signup, repository_users.get_user_by_email.
        destruct (db w !! UserModel.email body) as [c|] eqn:Hc; simpl.
        -- by rewrite Hc.
        -- by rewrite lookup_insert_eq.
  - rewrite (run_lookup_other o w e Hs). split; [by left|].
    intros [H|He]; [done|].
    destruct o as [env body url|env body|env cred|env token]; set_solver.
Qed.
End further.

Section sequences.
Context {Env : Type} (auth_service : AuthService Env).

(** X1. login returns exactly when the user is stored, confirmed, and the
    password verifies against the stored hash; it then returns a bearer
    pair whose access token is made with [expires_delta = 7200] and whose
    refresh token is the one it stores. *)
Theorem login_returns_iff
    (env : Env) (body : OAuth2PasswordRequestForm.t) (w : world) :
  let email := OAuth2PasswordRequestForm.username body in
  ((∃ r w', login auth_service env body w = (Return r, w'))
   ↔ ∃ c, db w !! email = Some c
          ∧ truth (User.confirmed c) = true
          ∧ verify_password auth_service
              (OAuth2PasswordRequestForm.password body) (User.password c)
            = true)
  ∧ (∀ r w', login auth_service env body w = (Return r, w') →
       r = Response HTTP_200_OK
             (TokenModel.Make
                (create_access_token auth_service env email (Some 7200))
                (create_refresh_token auth_service env email None)
                "bearer")
       ∧ User.refresh_token <$> db w' !! email
         = Some (Some (TokenModel.refresh_token (content r)))).
Proof.
  intros email. subst email. unfold login, repository_users.get_user_by_email.
  destruct (db w !! OAuth2PasswordRequestForm.username body) as [c|] eqn:Hc;
    simpl.
  - destruct (truth (User.confirmed c)) eqn:Ht; simpl.
    + destruct (verify_password _ _ _) eqn:Hv; simpl.
      * split; [split; [by exists c|eauto]|].
        intros r w' [= <- <-]. split; [done|]. simpl.
        by rewrite update_token_lookup.
      * split; [|done]. split; [by intros (? & ? & ?)|].
        intros (c' & [= <-] & _ & Hv'). congruence.
    + split; [|done]. split; [by intros (? & ? & ?)|].
      intros (c' & [= <-] & Ht' & _). congruence.
  - split; [|done]. split; [by intros (? & ? & ?)|by intros (? & ? & _)].
Qed.

(** X2. refresh_token returns exactly when the token decodes to the email of a
    stored user whose stored refresh token is the presented one. *)
Theorem refresh_returns_iff (env : Env) (token : string) (w : world) :
  (∃ r w', refresh_token auth_service env token w = (Return r, w'))
  ↔ ∃ email c, decode_refresh_token auth_service env token = Return email
               ∧ db w !! email = Some c
               ∧ User.refresh_token c = Some token.
Proof.
  unfold refresh_token.
  destruct (decode_refresh_token auth_service env token) as [email|err].
  - unfold repository_users.get_user_by_email.
    destruct (db w !! email) as [c|] eqn:Hc; simpl.
    + case_bool_decide as Ht; simpl.
      * split; [by exists email, c|eauto].
      * split; [by intros (? & ? & ?)|].
        intros (e' & c' & [= <-] & Hc' & Ht'). congruence.
    + split; [by intros (? & ? & ?)|].
      intros (e' & c' & [= <-] & Hc' & _). congruence.
  - split; [by intros (? & ? & ?)|by intros (? & ? & ? & _)].
Qed.

(** X3. After refresh_token has refused a token for a stored user, and
    over every sequence of requests that holds no login with that user's
    email, it refuses, with 401, every token that decodes to that user, the
    one that was stored before the refusal included: only a login lets the
    user refresh again. *)
Theorem refresh_mismatch_locks_out
    (env : Env) (token email : string) (w : world) (c : User.columns)
    (os : list (operation Env)) :
  decode_refresh_token auth_service env token = Return email →
  db w !! email = Some c →
  User.refresh_token c ≠ Some token →
  Forall (fun o => ¬ logs_in email o) os →
  ∀ env' token',
    decode_refresh_token auth_service env' token' = Return email →
    fst (refresh_token auth_service env' token'
           (run_all auth_service os
              (snd (refresh_token auth_service env token w))))
    = Unauthorized INVALID_TOKEN.
Proof.
  intros Hd Hc Hne Hos env' token' Hd'.
  assert (snd (refresh_token auth_service env token w)
          = with_db (<[email := User.set_refresh_token None c]> (db w)) w) as ->.
  { unfold refresh_token. rewrite Hd, (get_user_by_email_Some _ _ _ Hc). simpl.
    by rewrite bool_decide_eq_false_2. }
  destruct (run_all_no_login auth_service os
              (with_db (<[email := User.set_refresh_token None c]> (db w)) w)
              email (User.set_refresh_token None c))
    as (c' & Hc' & Hn'); [simpl; apply lookup_insert_eq|done|done|].
  unfold refresh_token. rewrite Hd'.
  rewrite (get_user_by_email_Some _ _ _ Hc'). simpl. by rewrite Hn'.
Qed.

(** X4. A request that raises leaves the world as it was, but for one case:
    refresh_token raising 401 INVALID_TOKEN for a stored user, where the
    world differs by that user's refresh token, now null. *)
Theorem raising_request_changes_nothing
    (o : operation Env) (w : world) (e : exception) :
  raised auth_service o w = Some e →
  run auth_service o w = w
  ∨ (∃ env token email c,
       o = Refresh env token
       ∧ e = HTTPException HTTP_401_UNAUTHORIZED INVALID_TOKEN
       ∧ decode_refresh_token auth_service env token = Return email
       ∧ db w !! email = Some c
       ∧ run auth_service o w
         = with_db (<[email := User.set_refresh_token None c]> (db w)) w).
Proof.
  destruct o as [env body url|env body|env cred|env token]; simpl.
  - unfold signup. destruct (repository_users.get_user_by_email _ _);
      simpl; [by left|done].
  - unfold login. destruct (repository_users.get_user_by_email _ _);
      simpl; [|by left].
    destruct (negb (truth _)); simpl; [by left|].
    destruct (negb (verify_password _ _ _)); simpl; [by left|done].
  - unfold refresh_token.
    destruct (decode_refresh_token _ _ _) as [email|err] eqn:Hd;
      simpl; [|by left].
    unfold repository_users.get_user_by_email.
    destruct (db w !! email) as [c|] eqn:Hc; simpl; [|by left].
    destruct (negb _); simpl; [|done].
    intros [= <-]. right. by exists env, cred, email, c.
  - unfold confirmed_email.
    destruct (get_email_from_token _ _ _); simpl; [|by left].
    destruct (repository_users.get_user_by_email _ _); simpl; [|by left].
    destruct (truth _); simpl; done.
Qed.

(** X5. The flow of a new user: after signup with a free email, login is
    refused as not confirmed whatever the password; the confirmation with a
    token for that email answers EMAIL_CONFIRMED; login with the password
    of the signup then returns, provided the service verifies a password
    against its own hash, and stores the refresh token it returns. *)
Theorem signup_confirm_login
    (env1 env2 env3 : Env) (body : UserModel.t) (base_url token : string)
    (w : world) :
  db w !! UserModel.email body = None →
  get_email_from_token auth_service env2 token
  = Return (UserModel.email body) →
  verify_password auth_service (UserModel.password body)
    (get_password_hash auth_service env1 (UserModel.password body)) = true →
  let email := UserModel.email body in
  let w1 := snd (signup auth_service env1 body base_url w) in
  let w2 := snd (confirmed_email auth_service env2 token w1) in
  let form := OAuth2PasswordRequestForm.Make email (UserModel.password body) in
  (∀ env password,
     login auth_service env (OAuth2PasswordRequestForm.Make email password) w1
     = (Unauthorized EMAIL_NOT_CONFIRMED, w1))
  ∧ fst (confirmed_email auth_service env2 token w1)
    = Return (Response HTTP_200_OK EMAIL_CONFIRMED)
  ∧ fst (login auth_service env3 form w2)
    = Return (Response HTTP_200_OK
                (TokenModel.Make
                   (create_access_token auth_service env3 email (Some 7200))
                   (create_refresh_token auth_service env3 email None)
                   "bearer"))
  ∧ User.refresh_token <$> db (snd (login auth_service env3 form w2)) !! email
    = Some (Some (create_refresh_token auth_service env3 email None)).
Proof.
  intros Hfree Hd Hv email w1 w2 form. subst email form.
  pose (c := {| User.username := UserModel.username body;
                User.password :=
                  get_password_hash auth_service env1 (UserModel.password body);
                User.confirmed := Some false;
                User.refresh_token := None |}).
  assert (db w1 !! UserModel.email body = Some c) as H1.
  { subst w1. unfold signup. rewrite (get_user_by_email_None _ _ Hfree). simpl.
    by rewrite lookup_insert_eq. }
  assert (confirmed_email auth_service env2 token w1
          = (Return (Response HTTP_200_OK EMAIL_CONFIRMED),
             with_db (repository_users.confirmed_email (UserModel.email body)
                        (db w1)) w1)) as H2.
  { unfold confirmed_email. rewrite Hd.
    by rewrite (get_user_by_email_Some _ _ _ H1). }
  assert (db w2 !! UserModel.email body
          = Some (User.set_confirmed (Some true) c)) as H3.
  { subst w2. rewrite H2. simpl.
    rewrite confirmed_email_lookup, decide_True by done. by rewrite H1. }
  clearbody w1 w2.
  split; [|split].
  - intros env password. unfold login.
    cbn [OAuth2PasswordRequestForm.username].
    by rewrite (get_user_by_email_Some _ _ _ H1).
  - by rewrite H2.
  - unfold login.
    cbn [OAuth2PasswordRequestForm.username OAuth2PasswordRequestForm.password].
    rewrite (get_user_by_email_Some _ _ _ H3). simpl. rewrite Hv. simpl.
    split; [done|]. by rewrite update_token_lookup.
Qed.
End sequences.

Section invariants.
Context {Env : Type} (auth_service : AuthService Env).

Lemma run_holders_confirmed (o : operation Env) (w : world) :
  holders_confirmed w → holders_confirmed (run auth_service o w).
Proof.
  intros Hinv e c'.
  destruct o as [env body url|env body|env cred|env token]; simpl.
  - unfold signup, repository_users.get_user_by_email.
    destruct (db w !! UserModel.email body) as [c|] eqn:Hc; simpl;
      [apply Hinv|].
    destruct (decide (UserModel.email body = e)) as [->|He].
    + rewrite lookup_insert_eq. intros [= <-]. simpl. by intros [? ?].
    + rewrite lookup_insert_ne by done. apply Hinv.
  - unfold login, repository_users.get_user_by_email.
    destruct (db w !! OAuth2PasswordRequestForm.username body) as [c|] eqn:Hc;
      simpl; [|apply Hinv].
    destruct (truth (User.confirmed c)) eqn:Ht; simpl; [|apply Hinv].
    destruct (negb (verify_password _ _ _)); simpl; [apply Hinv|].
    destruct (decide (OAuth2PasswordRequestForm.username body = e)) as [->|He].
    + rewrite update_token_lookup. by intros [= <-].
    + rewrite update_token_lookup_ne by done. apply Hinv.
  - unfold refresh_token.
    destruct (decode_refresh_token _ _ _) as [email|err]; simpl; [|apply Hinv].
    unfold repository_users.get_user_by_email.
    destruct (db w !! email) as [c|] eqn:Hc; simpl; [|apply Hinv].
    case_bool_decide as Ht; simpl.
    + destruct (decide (email = e)) as [->|He].
      * rewrite update_token_lookup. intros [= <-] _. simpl.
        apply (Hinv e c Hc). by rewrite Ht.
      * rewrite update_token_lookup_ne by done. apply Hinv.
    + destruct (decide (email = e)) as [->|He].
      * rewrite update_token_lookup. intros [= <-]. simpl. by intros [? ?].
      * rewrite update_token_lookup_ne by done. apply Hinv.
  - unfold confirmed_email.
    destruct (get_email_from_token _ _ _) as [email|err]; simpl; [|apply Hinv].
    unfold repository_users.get_user_by_email.
    destruct (db w !! email) as [c|] eqn:Hc; simpl; [|apply Hinv].
    destruct (truth (User.confirmed c)) eqn:Ht; simpl; [apply Hinv|].
    rewrite confirmed_email_lookup. case_decide as He; [|apply Hinv].
    subst e. rewrite Hc. by intros [= <-].
Qed.

(** X6. Only confirmed users hold refresh tokens: the property is kept by
    every sequence of requests, so in such a world refresh_token, which
    does not read the confirmed attribute, returns tokens to confirmed
    users only. *)
Theorem token_holders_stay_confirmed (os : list (operation Env)) (w : world) :
  holders_confirmed w →
  holders_confirmed (run_all auth_service os w)
  ∧ (∀ env token r w',
       refresh_token auth_service env token (run_all auth_service os w)
       = (Return r, w') →
       ∃ email c,
         decode_refresh_token auth_service env token = Return email
         ∧ db (run_all auth_service os w) !! email = Some c
         ∧ truth (User.confirmed c) = true).
Proof.
  intros Hw.
  assert (holders_confirmed (run_all auth_service os w)) as Hinv.
  { revert w Hw. induction os as [|o os IH]; intros w Hw; [done|].
    simpl. apply IH. by apply run_holders_confirmed. }
  split; [done|].
  intros env token r w'. unfold refresh_token.
  destruct (decode_refresh_token _ _ _) as [email|err]; [|done].
  unfold repository_users.get_user_by_email.
  destruct (db (run_all auth_service os w) !! email) as [c|] eqn:Hc;
    simpl; [|done].
  case_bool_decide as Ht; simpl; [|done].
  intros _. exists email, c. repeat split; [done|].
  apply (Hinv email c Hc). by rewrite Ht.
Qed.

(** X7. No sequence of requests removes a stored user or changes its username
    or its password hash. *)
Theorem credentials_are_kept
    (os : list (operation Env)) (w : world) (e : string) (c : User.columns) :
  db w !! e = Some c →
  ∃ c', db (run_all auth_service os w) !! e = Some c'
        ∧ User.username c' = User.username c
        ∧ User.password c' = User.password c.
Proof.
  revert w c. induction os as [|o os IH]; intros w c Hc; [by exists c|].
  destruct (run_lookup auth_service o w e c Hc) as (c1 & H1 & Hu & Hp & _).
  destruct (IH _ _ H1) as (c' & H' & Hu' & Hp').
  exists c'. simpl. by rewrite Hu', Hp'.
Qed.

(** X8. A sequence of requests none of which is about an email leaves what is
    stored under that email as it was: the same row, or none. *)
Theorem other_requests_keep_row
    (os : list (operation Env)) (w : world) (e : string) :
  Forall (fun o => subject auth_service o ≠ Some e) os →
  db (run_all auth_service os w) !! e = db w !! e.
Proof.
  revert w. induction os as [|o os IH]; intros w Hos; [done|].
  inversion Hos as [|? ? Ho Hos']; subst. simpl.
  rewrite IH by done. by apply run_lookup_other.
Qed.

(** X10. The stored emails only grow, and by signups: after a sequence of
    requests every email stored before is stored, and an email stored
    after it was stored before or is the email of a signup of the
    sequence. *)
Theorem users_come_from_signups (os : list (operation Env)) (w : world) :
  dom (db w) ⊆ dom (db (run_all auth_service os w))
  ∧ (∀ e, e ∈ dom (db (run_all auth_service os w)) →
          e ∈ dom (db w)
          ∨ ∃ env body base_url,
              Signup env body base_url ∈ os ∧ UserModel.email body = e).
Proof.
  revert w. induction os as [|o os IH]; intros w.
  - split; [done|]. intros e H. by left.
  - simpl. destruct (IH (run auth_service o w)) as [Hs Hin]. split.
    + etrans; [|exact Hs]. rewrite run_dom. apply union_subseteq_l.
    + intros e H. destruct (Hin e H) as [H0|(env & body & url & Hb & He)].
      * rewrite run_dom in H0. apply elem_of_union in H0 as [H0|H0];
          [by left|right].
        destruct o as [env body url|?|?|?];
          [|by apply elem_of_empty in H0..].
        apply elem_of_singleton in H0 as ->.
        exists env, body, url. split; [apply list_elem_of_here|done].
      * right. exists env, body, url.
        split; [by apply list_elem_of_further|done].
Qed.

(** X11. After a signup that returned, and over every sequence of requests that
    holds no confirmation for its email, login with that email is refused
    as not confirmed, whatever the password, and changes nothing. *)
Theorem login_before_confirmation_fails
    (env : Env) (body : UserModel.t) (base_url : string) (w : world)
    (r : response signup_content) (w1 : world) (os : list (operation Env)) :
  signup auth_service env body base_url w = (Return r, w1) →
  Forall (fun o => ¬ confirms auth_service (UserModel.email body) o) os →
  ∀ env' password,
    login auth_service env'
      (OAuth2PasswordRequestForm.Make (UserModel.email body) password)
      (run_all auth_service os w1)
    = (Unauthorized EMAIL_NOT_CONFIRMED, run_all auth_service os w1).
Proof.
  intros Hs Hos env' password.
  assert (confirmed_of (UserModel.email body) w1 = Some (Some false)) as H1.
  { revert Hs. unfold signup, repository_users.get_user_by_email.
    destruct (db w !! UserModel.email body); simpl; [done|].
    intros [= _ <-]. unfold confirmed_of. simpl. by rewrite lookup_insert_eq. }
  pose proof (run_all_other_confirmed auth_service os w1 _ _ H1 Hos) as H2.
  unfold confirmed_of in H2.
  destruct (db (run_all auth_service os w1) !! UserModel.email body)
    as [c|] eqn:Hc; [|done].
  injection H2 as H2. unfold login.
  cbn [OAuth2PasswordRequestForm.username].
  rewrite (get_user_by_email_Some _ _ _ Hc). simpl. by rewrite H2.
Qed.
End invariants.


(** ** Further properties of the migration *)

Lemma has_column_false c t :
  has_column c t = false → c ∉ sa.name <$> columns t.
Proof. unfold has_column. intros H. by apply bool_decide_eq_false in H. Qed.

(** Dropping a column by name keeps the columns of other names. *)
Lemma filter_other_columns (c : string) (l : list sa.Column) :
  c ∉ sa.name <$> l → filter (fun x => sa.name x ≠ c) l = l.
Proof.
  induction l as [|x l IH]; simpl; [done|]. intros H.
  apply not_elem_of_cons in H as [Hx Hl].
  rewrite filter_cons_True by congruence. by rewrite IH.
Qed.

(** After a column is dropped by name no column has that name. *)
Lemma filter_column_gone (c : string) (l : list sa.Column) :
  c ∉ sa.name <$> filter (fun x => sa.name x ≠ c) l.
Proof.
  intros H. apply list_elem_of_fmap in H as (x & Hn & Hx).
  apply list_elem_of_filter in Hx as [Hx _]. by destruct Hx.
Qed.

Lemma has_column_dropped (c : string) (l : list sa.Column) rs :
  has_column c {| columns := filter (fun x => sa.name x ≠ c) l; rows := rs |}
  = false.
Proof.
  unfold has_column. apply bool_decide_eq_false. apply filter_column_gone.
Qed.

Lemma has_column_added (x : sa.Column) (l : list sa.Column) rs :
  has_column (sa.name x) {| columns := l ++ [x]; rows := rs |} = true.
Proof.
  unfold has_column. apply bool_decide_eq_true. simpl.
  rewrite fmap_app. apply elem_of_app. right. apply list_elem_of_here.
Qed.

(** What [upgrade] answers, by the state of the [users] table. *)
Lemma upgrade_users d t :
  d !! "users" = Some t →
  upgrade d
  = if has_column "confirmed" t then None
    else Some (<["users" :=
                 {| columns :=
                      columns t
                      ++ [ {| sa.name := "confirmed"; sa.type := sa.Boolean;
                              sa.nullable := true;
                              sa.server_default := None |} ];
                    rows := insert "confirmed" NULL <$> rows t |}]> d).
Proof. intros H. unfold upgrade, op.add_column. by rewrite H. Qed.

Lemma downgrade_users d t :
  d !! "users" = Some t →
  downgrade d
  = if has_column "confirmed" t then
      Some (<["users" :=
              {| columns :=
                   filter (fun c => sa.name c ≠ "confirmed") (columns t);
                 rows := delete "confirmed" <$> rows t |}]> d)
    else None.
Proof. intros H. unfold downgrade, op.drop_column. by rewrite H. Qed.

(** X12. downgrade undoes upgrade: on a database whose [users] table is well
    formed and has no [confirmed] column, upgrade is accepted and downgrade
    after it gives the database back. *)
Theorem downgrade_undoes_upgrade (d : gmap string table) (t : table) :
  d !! "users" = Some t →
  has_column "confirmed" t = false →
  well_formed t →
  upgrade d ≫= downgrade = Some d.
Proof.
  intros Ht Hc Hwf. rewrite (upgrade_users d t Ht), Hc. simpl.
  erewrite downgrade_users by apply lookup_insert_eq.
  rewrite (has_column_added
             {| sa.name := "confirmed"; sa.type := sa.Boolean;
                sa.nullable := true; sa.server_default := None |}).
  simpl. f_equal. rewrite insert_insert_eq. apply insert_id. rewrite Ht.
  f_equal. destruct t as [cs rs]. simpl in *. f_equal.
  - rewrite filter_app, filter_other_columns by by apply has_column_false in Hc.
    rewrite filter_cons_False, filter_nil by (simpl; intros H; by apply H).
    by rewrite app_nil_r.
  - apply has_column_false in Hc. simpl in Hc. unfold well_formed in Hwf.
    simpl in Hwf. rewrite <- list_fmap_compose.
    rewrite <- (list_fmap_id rs) at 1. symmetry. apply Forall_fmap_ext_1.
    eapply Forall_impl; [exact Hwf|]. intros r Hr. simpl.
    rewrite delete_insert_eq. apply delete_id. apply not_elem_of_dom.
    rewrite Hr.
    by rewrite elem_of_list_to_set.
Qed.

(** X13. Neither migration step can be applied twice in a row: after an
    accepted upgrade a second upgrade is refused, and after an accepted
    downgrade a second downgrade is refused. *)
Theorem migration_not_repeatable (d d' : gmap string table) :
  (upgrade d = Some d' → upgrade d' = None)
  ∧ (downgrade d = Some d' → downgrade d' = None).
Proof.
  destruct (d !! "users") as [t|] eqn:Ht.
  - rewrite (upgrade_users d t Ht), (downgrade_users d t Ht).
    destruct (has_column "confirmed" t) eqn:Hc.
    + split; [done|]. intros [= <-].
      erewrite downgrade_users by apply lookup_insert_eq.
      by rewrite has_column_dropped.
    + split; [|done]. intros [= <-].
      erewrite upgrade_users by apply lookup_insert_eq.
      by rewrite (has_column_added
                    {| sa.name := "confirmed"; sa.type := sa.Boolean;
                       sa.nullable := true; sa.server_default := None |}).
  - unfold upgrade, downgrade, op.add_column, op.drop_column. rewrite Ht.
    by split.
Qed.

(** X14. upgrade touches the [users] table only, keeps its rows in number and
    order, gives each row NULL in the new column and leaves its values in
    the other columns, and keeps the table well formed. *)
Theorem upgrade_keeps_data (d d' : gmap string table) :
  upgrade d = Some d' →
  (∀ n, n ≠ "users" → d' !! n = d !! n)
  ∧ ∃ t t', d !! "users" = Some t ∧ d' !! "users" = Some t'
            ∧ length (rows t') = length (rows t)
            ∧ (∀ i r, rows t !! i = Some r →
                 ∃ r', rows t' !! i = Some r'
                       ∧ r' !! "confirmed" = Some NULL
                       ∧ ∀ c, c ≠ "confirmed" → r' !! c = r !! c)
            ∧ (well_formed t → well_formed t').
Proof.
  destruct (d !! "users") as [t|] eqn:Ht.
  - rewrite (upgrade_users d t Ht).
    destruct (has_column "confirmed" t) eqn:Hc; [done|]. intros [= <-].
    split; [intros n Hn; by apply lookup_insert_ne|].
    eexists t, _. split; [done|]. split; [apply lookup_insert_eq|]. simpl.
    split; [apply length_fmap|]. split.
    + intros i r Hr. exists (<["confirmed" := NULL]> r).
      rewrite list_lookup_fmap, Hr. split; [done|].
      split; [apply lookup_insert_eq|].
      intros c Hne. by apply lookup_insert_ne.
    + unfold well_formed. simpl. intros Hwf. apply Forall_fmap.
      eapply Forall_impl; [exact Hwf|]. intros r Hr. simpl.
      rewrite dom_insert_L, Hr, fmap_app, list_to_set_app_L. simpl.
      rewrite (right_id_L ∅ (∪)). apply (comm_L (∪)).
  - unfold upgrade, op.add_column. by rewrite Ht.
Qed.

(** X15. downgrade loses the confirmations: on a table with the column,
    downgrade and then upgrade are accepted and give a table with as many
    rows, each loaded with confirmed = None. *)
Theorem downgrade_loses_confirmations (d : gmap string table) (t : table) :
  d !! "users" = Some t →
  has_column "confirmed" t = true →
  ∃ d2 t2, downgrade d ≫= upgrade = Some d2
           ∧ d2 !! "users" = Some t2
           ∧ length (rows t2) = length (rows t)
           ∧ ∀ r, r ∈ rows t2 → load_confirmed r = None.
Proof.
  intros Ht Hc. rewrite (downgrade_users d t Ht), Hc. simpl.
  erewrite upgrade_users by apply lookup_insert_eq.
  rewrite has_column_dropped.
  eexists _, _. split; [done|]. split; [apply lookup_insert_eq|]. simpl.
  split; [by rewrite !length_fmap|].
  intros r Hr. apply list_elem_of_fmap in Hr as (r0 & -> & _).
  unfold load_confirmed. by rewrite lookup_insert_eq.
Qed.


(** ** The further properties on a concrete run *)

Lemma login_returns_iff_witness :
  ∃ r w', login demo.auth_service "3"%char demo.form demo.confirmed
          = (Return r, w').
Proof.
  apply (proj2 (proj1 (login_returns_iff demo.auth_service "3"%char
                         demo.form demo.confirmed))).
  exists (demo.cols true None).
  split; [vm_compute; reflexivity|]. split; reflexivity.
Defined.

Lemma refresh_returns_iff_witness :
  ∃ r w', refresh_token demo.auth_service "4"%char "r3a@x.com"
            (demo.logged_in "3"%char)
          = (Return r, w').
Proof.
  apply (proj2 (refresh_returns_iff demo.auth_service "4"%char "r3a@x.com"
                  (demo.logged_in "3"%char))).
  exists "a@x.com", (demo.cols true (Some "r3a@x.com")).
  split; [reflexivity|]. split; [vm_compute; reflexivity|reflexivity].
Defined.

Lemma refresh_mismatch_locks_out_witness :
  fst (refresh_token demo.auth_service "7"%char "r4a@x.com"
         (run_all demo.auth_service
            [Refresh "6"%char "r4a@x.com";
             ConfirmEmail "6"%char "c2a@x.com"]
            (snd (refresh_token demo.auth_service "5"%char "r3a@x.com"
                    (demo.logged_in "4"%char)))))
  = Raise (HTTPException HTTP_401_UNAUTHORIZED INVALID_TOKEN).
Proof.
  apply (refresh_mismatch_locks_out demo.auth_service "5"%char "r3a@x.com"
           "a@x.com" (demo.logged_in "4"%char)
           (demo.cols true (Some "r4a@x.com"))).
  - reflexivity.
  - vm_compute; reflexivity.
  - discriminate.
  - repeat constructor; simpl; tauto.
  - reflexivity.
Defined.

Lemma raising_request_changes_nothing_witness :
  raised demo.auth_service (Login "3"%char demo.form) demo.signed_up
  = Some (HTTPException HTTP_401_UNAUTHORIZED EMAIL_NOT_CONFIRMED)
  ∧ (run demo.auth_service (Login "3"%char demo.form) demo.signed_up
     = demo.signed_up
     ∨ ∃ env token email c,
         Login "3"%char demo.form = Refresh env token
         ∧ HTTPException HTTP_401_UNAUTHORIZED EMAIL_NOT_CONFIRMED
           = HTTPException HTTP_401_UNAUTHORIZED INVALID_TOKEN
         ∧ decode_refresh_token demo.auth_service env token = Return email
         ∧ db demo.signed_up !! email = Some c
         ∧ run demo.auth_service (Login "3"%char demo.form) demo.signed_up
           = with_db (<[email := User.set_refresh_token None c]>
                        (db demo.signed_up)) demo.signed_up).
Proof.
  assert (raised demo.auth_service (Login "3"%char demo.form) demo.signed_up
          = Some (HTTPException HTTP_401_UNAUTHORIZED EMAIL_NOT_CONFIRMED))
    as H by (vm_compute; reflexivity).
  split; [exact H|].
  exact (raising_request_changes_nothing demo.auth_service _ _ _ H).
Defined.

Lemma signup_confirm_login_witness :
  db demo.empty !! "a@x.com" = None
  ∧ fst (login demo.auth_service "3"%char demo.form demo.confirmed)
    = Return (Response HTTP_200_OK
                (TokenModel.Make "a3a@x.com" "r3a@x.com" "bearer")).
Proof.
  assert (db demo.empty !! "a@x.com" = None) as H by (vm_compute; reflexivity).
  split; [exact H|].
  exact (proj1 (proj2 (proj2
           (signup_confirm_login demo.auth_service "1"%char "2"%char "3"%char
              demo.body "http://x/" "c2a@x.com" demo.empty
              H eq_refl eq_refl)))).
Defined.

Lemma token_holders_stay_confirmed_witness :
  holders_confirmed demo.empty
  ∧ holders_confirmed
      (run_all demo.auth_service
         [Signup "1"%char demo.body "http://x/";
          ConfirmEmail "2"%char "c2a@x.com";
          Login "3"%char demo.form] demo.empty).
Proof.
  assert (holders_confirmed demo.empty) as H.
  { intros e c Hc. simpl in Hc. by rewrite lookup_empty in Hc. }
  split; [exact H|].
  exact (proj1 (token_holders_stay_confirmed demo.auth_service _ _ H)).
Defined.

Lemma credentials_are_kept_witness :
  db demo.signed_up !! "a@x.com" = Some (demo.cols false None)
  ∧ ∃ c', db (run_all demo.auth_service
                [ConfirmEmail "2"%char "c2a@x.com"; Login "3"%char demo.form]
                demo.signed_up) !! "a@x.com" = Some c'
          ∧ User.username c' = "a" ∧ User.password c' = "1pw".
Proof.
  assert (db demo.signed_up !! "a@x.com" = Some (demo.cols false None)) as H
    by (vm_compute; reflexivity).
  split; [exact H|].
  exact (credentials_are_kept demo.auth_service _ _ _ _ H).
Defined.

Lemma other_requests_keep_row_witness :
  db (run_all demo.auth_service
        [Login "3"%char demo.form; Refresh "4"%char "r3a@x.com"]
        demo.confirmed) !! "b@x.com"
  = db demo.confirmed !! "b@x.com".
Proof.
  apply (other_requests_keep_row demo.auth_service).
  repeat constructor; simpl; discriminate.
Defined.

Lemma users_come_from_signups_witness :
  "a@x.com" ∈ dom (db demo.empty)
  ∨ ∃ env body base_url,
      Signup env body base_url ∈ [Signup "1"%char demo.body "http://x/"]
      ∧ UserModel.email body = "a@x.com".
Proof.
  apply (proj2 (users_come_from_signups demo.auth_service
                  [Signup "1"%char demo.body "http://x/"] demo.empty)).
  apply elem_of_dom. exists (demo.cols false None). vm_compute; reflexivity.
Defined.

Lemma login_before_confirmation_fails_witness :
  login demo.auth_service "5"%char
    (OAuth2PasswordRequestForm.Make "a@x.com" "pw")
    (run_all demo.auth_service
       [Login "3"%char demo.form; Refresh "4"%char "r3a@x.com"]
       demo.signed_up)
  = (Raise (HTTPException HTTP_401_UNAUTHORIZED EMAIL_NOT_CONFIRMED),
     run_all demo.auth_service
       [Login "3"%char demo.form; Refresh "4"%char "r3a@x.com"]
       demo.signed_up).
Proof.
  apply (login_before_confirmation_fails demo.auth_service "1"%char demo.body
           "http://x/" demo.empty
           (Response HTTP_201_CREATED
              {| user := User.Make "a@x.com" (demo.cols false None);
                 detail := SUCCESS_CREATE_USER |})).
  - vm_compute; reflexivity.
  - repeat constructor; simpl; tauto.
Defined.

Lemma downgrade_undoes_upgrade_witness :
  upgrade demo.old_users ≫= downgrade = Some demo.old_users.
Proof.
  eapply downgrade_undoes_upgrade.
  - reflexivity.
  - vm_compute; reflexivity.
  - repeat constructor.
Defined.

Lemma migration_not_repeatable_witness :
  upgrade demo.old_users = Some demo.migrated
  ∧ upgrade demo.migrated = None.
Proof.
  assert (upgrade demo.old_users = Some demo.migrated) as H
    by (vm_compute; reflexivity).
  split; [exact H|].
  exact (proj1 (migration_not_repeatable demo.old_users demo.migrated) H).
Defined.

Lemma upgrade_keeps_data_witness :
  upgrade demo.old_users = Some demo.migrated
  ∧ demo.migrated !! "contacts" = demo.old_users !! "contacts".
Proof.
  assert (upgrade demo.old_users = Some demo.migrated) as H
    by (vm_compute; reflexivity).
  split; [exact H|].
  apply (proj1 (upgrade_keeps_data _ _ H)). discriminate.
Defined.

Lemma downgrade_loses_confirmations_witness :
  ∃ d2 t2, downgrade demo.new_users ≫= upgrade = Some d2
           ∧ d2 !! "users" = Some t2
           ∧ length (rows t2)
             = length (rows (default (Table [] []) (demo.new_users !! "users")))
           ∧ ∀ r, r ∈ rows t2 → load_confirmed r = None.
Proof.
  apply (downgrade_loses_confirmations demo.new_users
           (default (Table [] []) (demo.new_users !! "users"))).
  - vm_compute; reflexivity.
  - vm_compute; reflexivity.
Defined.
